(** * allowfail.py: a guard that turns exceptions into results

    Shallow embedding of [src/allowfail.py] and the properties of its two
    modes of use: the decorator ([AllowFail.__call__] / [protect]) and the
    context manager ([AllowFail.__enter__] / [AllowFail.__exit__]).

    Python code runs in [M]: a computation takes the world (what the logging
    channels received, the memory of the callables under guard, the next
    object identity) and either completes normally with a value or raises an
    exception object; the world it leaves behind is kept in both cases, as
    side effects made before a [raise] stay visible in Python. *)

From Stdlib Require Import String Ascii List ZArith Bool Lia.
From Stdlib Require Import DecimalString.
Import ListNotations.
Local Open Scope list_scope.
Local Open Scope string_scope.

(** ** Python values *)

(** The exception classes the development needs, with Python's hierarchy:
    [BaseException] at the root; [SystemExit], [KeyboardInterrupt] and
    [GeneratorExit] directly below it; everything else below [Exception].
    Each of them can be instantiated with an empty argument list. *)
Inductive exc_class : Type :=
  | BaseException
  | SystemExit
  | KeyboardInterrupt
  | GeneratorExit
  | Exception
  | StopIteration
  | ValueError
  | TypeError
  | AttributeError
  | RuntimeError
  | UserError (name : string).

Definition exc_class_eqb (c d : exc_class) : bool :=
  match c, d with
  | BaseException, BaseException
  | SystemExit, SystemExit
  | KeyboardInterrupt, KeyboardInterrupt
  | GeneratorExit, GeneratorExit
  | Exception, Exception
  | StopIteration, StopIteration
  | ValueError, ValueError
  | TypeError, TypeError
  | AttributeError, AttributeError
  | RuntimeError, RuntimeError => true
  | UserError n, UserError m => String.eqb n m
  | _, _ => false
  end.

(** [__bases__]: the direct base class. *)
Definition base_of (c : exc_class) : option exc_class :=
  match c with
  | BaseException => None
  | SystemExit | KeyboardInterrupt | GeneratorExit | Exception =>
      Some BaseException
  | _ => Some Exception
  end.

Fixpoint issubclass_upto (depth : nat) (c d : exc_class) : bool :=
  if exc_class_eqb c d then true
  else match depth, base_of c with
       | S depth', Some b => issubclass_upto depth' b d
       | _, _ => false
       end.

(** The hierarchy above is two levels deep. *)
Definition issubclass : exc_class -> exc_class -> bool := issubclass_upto 2.

(** An exception instance: its identity, its class and the message it was
    built with ([None] for an instance built with no argument). *)
Record exc_obj : Type := mk_exc {
  exc_id : nat;
  exc_type : exc_class;
  exc_message : option string
}.

Definition isinstance (e : exc_obj) (c : exc_class) : bool :=
  issubclass (exc_type e) c.

Inductive value : Type :=
  | VNone
  | VBool (b : bool)
  | VInt (z : Z)
  | VStr (s : string)
  | VExc (e : exc_obj)
  | VResult (ok : bool) (result : value).

(** [AllowFailResult = namedtuple("AllowFailResult", ["ok", "result"])] *)
Definition AllowFailResult (ok : bool) (result : value) : value :=
  VResult ok result.

Definition kwargs : Type := list (string * value).

(** [str(e)] of an exception: its message, empty when it has none. *)
Definition str_exc (e : exc_obj) : string :=
  match exc_message e with
  | Some m => m
  | None => ""
  end.

Definition str_Z (z : Z) : string := NilZero.string_of_int (Z.to_int z).

Definition str_bool (b : bool) : string := if b then "True" else "False".

(** [str(v)] *)
Fixpoint str (v : value) : string :=
  match v with
  | VNone => "None"
  | VBool b => str_bool b
  | VInt z => str_Z z
  | VStr s => s
  | VExc e => str_exc e
  | VResult ok r =>
      "AllowFailResult(ok=" ++ str_bool ok ++ ", result=" ++ str r ++ ")"
  end.

(** ** String interpolation: [template % params] with a tuple of params

    The conversions [%s], [%d] and [%%] are modelled, scanning the template
    from the left as Python does, with Python's errors: a [TypeError] when
    the params run out or are left over, a [ValueError] for a conversion
    that is cut short or not one of the three. *)
Inductive fmt_result : Type :=
  | Formatted (s : string)
  | FormatError (cls : exc_class) (msg : string).

Definition prepend (p : string) (r : fmt_result) : fmt_result :=
  match r with
  | Formatted s => Formatted (p ++ s)
  | FormatError c m => FormatError c m
  end.

Definition percent : ascii := "%"%char.

Fixpoint interpolate (template : string) (params : list value) : fmt_result :=
  match template with
  | EmptyString =>
      match params with
      | [] => Formatted ""
      | _ :: _ =>
          FormatError TypeError
            "not all arguments converted during string formatting"
      end
  | String c rest =>
      if Ascii.eqb c percent then
        match rest with
        | EmptyString => FormatError ValueError "incomplete format"
        | String k rest' =>
            if Ascii.eqb k percent then prepend "%" (interpolate rest' params)
            else if Ascii.eqb k "s"%char then
              match params with
              | [] =>
                  FormatError TypeError
                    "not enough arguments for format string"
              | p :: params' => prepend (str p) (interpolate rest' params')
              end
            else if Ascii.eqb k "d"%char then
              match params with
              | [] =>
                  FormatError TypeError
                    "not enough arguments for format string"
              | VInt z :: params' =>
                  prepend (str_Z z) (interpolate rest' params')
              | VBool b :: params' =>
                  prepend (if b then "1" else "0") (interpolate rest' params')
              | _ :: _ =>
                  FormatError TypeError "%d format: a number is required"
              end
            else FormatError ValueError "unsupported format character"
        end
      else prepend (String c "") (interpolate rest params)
  end.

(** ** The world and the monad of Python computations *)

Inductive level : Type := DEBUG | INFO | WARNING | ERROR | CRITICAL.

(** One entry received by a logging channel. *)
Record log_record : Type := mk_record {
  channel : string;
  levelname : level;
  message : string
}.

Record world : Type := mk_world {
  sink : list log_record;            (* entries written, oldest first *)
  cache : list (list value * kwargs); (* memory of the guarded callables *)
  next_id : nat                       (* identity of the next new object *)
}.

Inductive completion (A : Type) : Type :=
  | Normal (a : A)
  | Raised (e : exc_obj).
Arguments Normal {A} a.
Arguments Raised {A} e.

Definition M (A : Type) : Type := world -> completion A * world.

Definition ret {A} (a : A) : M A := fun w => (Normal a, w).

Definition bind {A B} (c : M A) (k : A -> M B) : M B :=
  fun w =>
    match c w with
    | (Normal a, w') => k a w'
    | (Raised e, w') => (Raised e, w')
    end.

Declare Scope py_scope.
Delimit Scope py_scope with py.
Notation "x <- c ;; k" := (bind c (fun x => k))
  (at level 61, c at next level, right associativity) : py_scope.
Notation "c ;; k" := (bind c (fun _ => k))
  (at level 61, right associativity) : py_scope.
Local Open Scope py_scope.

(** [raise e] *)
Definition raise {A} (e : exc_obj) : M A := fun w => (Raised e, w).

(** Calling an exception class: a new instance, with the next identity. *)
Definition allocated (w : world) : world :=
  mk_world (sink w) (cache w) (S (next_id w)).

Definition instantiate (cls : exc_class) (msg : option string) : M exc_obj :=
  fun w => (Normal (mk_exc (next_id w) cls msg), allocated w).

(** [template % params] as an expression of the program: the formatted
    string, or a new exception raised. *)
Definition str_mod (template : string) (params : list value) : M string :=
  match interpolate template params with
  | Formatted s => ret s
  | FormatError cls msg => e <- instantiate cls (Some msg) ;; raise e
  end.

(** [try: body  except cls as err: handler(err)] *)
Definition try_except {A} (body : M A) (cls : exc_class)
    (handler : exc_obj -> M A) : M A :=
  fun w =>
    match body w with
    | (Normal a, w') => (Normal a, w')
    | (Raised e, w') =>
        if isinstance e cls then handler e w' else (Raised e, w')
    end.

(** ** The logging module, as far as the guard uses it *)

(** A logger is either one of the logging module, known by its channel
    name, or any object of the caller's with a [warning] method. *)
Inductive Logger : Type :=
  | getLogger (name : string)
  | CustomLogger (warning : string -> list value -> M unit).

Definition logged (r : log_record) (w : world) : world :=
  mk_world (sink w ++ [r]) (cache w) (next_id w).

Definition emit (r : log_record) : M unit :=
  fun w => (Normal tt, logged r w).

(** [lg.warning] called with a message and its arguments.  A logger of
    the logging module writes one WARNING entry holding [msg % args] on its
    channel; the module keeps a formatting error to itself and nothing is
    written then. *)
Definition Logger_warning (lg : Logger) (msg : string) (args : list value)
    : M unit :=
  match lg with
  | getLogger name =>
      match interpolate msg args with
      | Formatted s => emit (mk_record name WARNING s)
      | FormatError _ _ => ret tt
      end
  | CustomLogger warning => warning msg args
  end.

(** ** Callables *)

(** A function object: the attributes the guard reads, and its behaviour
    when called with positional and keyword arguments. *)
Record pyfunc : Type := mk_func {
  f___name__ : option string;   (* [__name__], when the object has one *)
  f_func_name : option string;  (* [func_name], when the object has one *)
  f___doc__ : option string;
  f_str : string;               (* [str(func)] *)
  f_call : list value -> kwargs -> M value
}.

(** An error handler is called with the formatted label and the error. *)
Definition handler : Type := string -> exc_obj -> M unit.

Definition traceback : Type := list string.

(** ** class AllowFail *)
Module AllowFail.

Record t : Type := mk {
  label : string;
  params : list value;
  error_handler : handler;
  logger : Logger
}.

(** Class attribute [logger = logging.getLogger("OnError")]. *)
Definition cls_logger : Logger := getLogger "OnError".

(** [def on_error(self, label, err)], which reads only [self.logger]. *)
Definition on_error (self_logger : Logger) (label : string) (err : exc_obj)
    : M unit :=
  Logger_warning self_logger "%s got an error: %s" [VStr label; VExc err].

(** The keyword options the constructor looks at. *)
Record options : Type := mk_options {
  opt_on_error : option handler;
  opt_logger : option Logger
}.

Definition no_options : options := mk_options None None.

(** [def __init__(self, label, *params, **options)].  The default handler
    is the bound method [self.on_error], which logs through the logger the
    instance ends up with. *)
Definition __init__ (label : string) (params : list value) (opts : options)
    : t :=
  let lg := match opt_logger opts with
            | Some l => l
            | None => cls_logger
            end in
  mk label params
     (match opt_on_error opts with
      | Some h => h
      | None => on_error lg
      end)
     lg.

(** [def __enter__(self)] *)
Definition __enter__ (self : t) : M t := ret self.

(** [def __exit__(self, typ, val, trbk)] *)
Definition __exit__ (self : t) (typ : option exc_class)
    (val : option exc_obj) (trbk : option traceback) : M bool :=
  match typ with
  | Some cls =>
      val' <- match val with
              | None => instantiate cls None
              | Some v => ret v
              end ;;
      lbl <- str_mod (label self) (params self) ;;
      error_handler self lbl val' ;;
      ret true
  | None => ret true
  end.

(** The [with mgr: body] statement on a guard: [__enter__], the body, and
    [__exit__] with the exception in flight (or three [None]); a true
    answer from [__exit__] swallows the exception, and an exception of
    [__exit__] itself takes the place of the one in flight. *)
Definition with_stmt (mgr : t) (body : M unit) : M unit :=
  _ <- __enter__ mgr ;;
  fun w =>
    match body w with
    | (Normal _, w1) => (__exit__ mgr None None None ;; ret tt) w1
    | (Raised e, w1) =>
        match __exit__ mgr (Some (exc_type e)) (Some e) (Some []) w1 with
        | (Normal suppress, w2) =>
            if suppress then (Normal tt, w2) else (Raised e, w2)
        | (Raised e', w2) => (Raised e', w2)
        end
    end.

(** The name under which [protect] reports a failing handler:
    [str(func)], unless the function has a [__name__] or, failing that, a
    [func_name]. *)
Definition f_name (func : pyfunc) : string :=
  match f___name__ func with
  | Some n => n
  | None =>
      match f_func_name func with
      | Some n => n
      | None => f_str func
      end
  end.

(** [def protect], the closure built by [__call__], called with any
    positional and keyword arguments. *)
Definition protect (self : t) (func : pyfunc) (args : list value)
    (kwg : kwargs) : M value :=
  try_except
    (r <- f_call func args kwg ;; ret (AllowFailResult true r))
    Exception
    (fun err =>
       let result := AllowFailResult false (VExc err) in
       with_stmt (__init__ "On error handler: %s" [VStr (f_name func)]
                    no_options)
         (lbl <- str_mod (label self) (params self) ;;
          error_handler self lbl err) ;;
       ret result).

(** [def __call__(self, func)]: the function [protect], which
    [functools.wraps] gives the name and the docstring of [func] where
    [func] has them. *)
Definition __call__ (self : t) (func : pyfunc) : pyfunc :=
  let name := match f___name__ func with
              | Some n => n
              | None => "protect"
              end in
  mk_func (Some name) (Some name) (f___doc__ func)
    ("<function " ++ name ++ ">") (protect self func).

End AllowFail.

(** ** class TestUsage: the recording handler of the unit tests *)
Module TestUsage.

(** [def log]: appends the arguments of the call to [self.cache]. *)
Definition log (args : list value) (kwg : kwargs) : M unit :=
  fun w =>
    (Normal tt, mk_world (sink w) (cache w ++ [(args, kwg)]) (next_id w)).

(** [self.log] passed as [on_error]: called with the label and the error. *)
Definition log_handler : handler :=
  fun lbl err => log [VStr lbl; VExc err] [].

(** [def valueerror(): raise ValueError("test exception")] *)
Definition valueerror : pyfunc :=
  mk_func (Some "valueerror") (Some "valueerror") None
    "<function valueerror>"
    (fun _ _ => e <- instantiate ValueError (Some "test exception") ;;
                raise e).

(** [def func(): return 1] *)
Definition func : pyfunc :=
  mk_func (Some "func") (Some "func") None "<function func>"
    (fun _ _ => ret (VInt 1)).

Definition setUp : world := mk_world [] [] 0.

End TestUsage.

Import AllowFail.

(** The record the fallback guard of [protect] writes for [func] when
    reporting the exception [e2]. *)
Definition handler_failure_record (func : pyfunc) (e2 : exc_obj)
    : log_record :=
  mk_record "OnError" WARNING
    ("On error handler: " ++ f_name func ++ " got an error: " ++ str_exc e2).

(** ** Guards, handlers and functions used to run the code on examples *)
Module Scenario.

(** A handler that itself fails: [raise RuntimeError("handler broke")]. *)
Definition failing_handler : handler :=
  fun _ _ => e <- instantiate RuntimeError (Some "handler broke") ;; raise e.

(** A logger object of the caller's that records what it is asked to
    write in the cache instead of a logging channel. *)
Definition recording_logger : Logger :=
  CustomLogger (fun msg args => TestUsage.log (VStr msg :: args) []).

(** A function interrupted from the keyboard. *)
Definition interrupted : pyfunc :=
  mk_func (Some "interrupted") (Some "interrupted") None
    "<function interrupted>"
    (fun _ _ => e <- instantiate KeyboardInterrupt None ;; raise e).

(** A callable object with neither [__name__] nor [func_name]. *)
Definition nameless : pyfunc :=
  mk_func None None None "<Job object>"
    (fun _ _ => e <- instantiate ValueError (Some "no name") ;; raise e).

(** The guard of the unit tests. *)
Definition test_guard (param : string) : AllowFail.t :=
  __init__ "test %s" [VStr param]
    (mk_options (Some TestUsage.log_handler) None).

(** A guard whose label has one placeholder more than it has params. *)
Definition bad_label_guard : AllowFail.t :=
  __init__ "test %s %s" [VStr "valueerror"]
    (mk_options (Some TestUsage.log_handler) None).

(** A guard whose label has no placeholder for its one param. *)
Definition surplus_param_guard : AllowFail.t :=
  __init__ "test" [VStr "extra"]
    (mk_options (Some TestUsage.log_handler) None).

(** A guard whose handler fails, with a logger object of the caller's. *)
Definition failing_guard : AllowFail.t :=
  __init__ "test %s" [VStr "valueerror"]
    (mk_options (Some failing_handler) (Some recording_logger)).

(** A guard with the default handler and logger. *)
Definition default_guard : AllowFail.t :=
  __init__ "test %s" [VStr "default"] no_options.

(** The block [raise ValueError()]. *)
Definition raise_ValueError : M unit :=
  e <- instantiate ValueError None ;; raise e.

(** The block [raise KeyboardInterrupt()]. *)
Definition raise_KeyboardInterrupt : M unit :=
  e <- instantiate KeyboardInterrupt None ;; raise e.

(** The exception [TestUsage.valueerror] raises in [TestUsage.setUp], the
    first object made there, and the world it leaves. *)
Definition test_error : exc_obj :=
  mk_exc 0 ValueError (Some "test exception").

Definition interrupt : exc_obj := mk_exc 0 KeyboardInterrupt None.

Definition after_raise : world := mk_world [] [] 1.

(** What the failing handler raises when called in [after_raise]. *)
Definition handler_error : exc_obj :=
  mk_exc 1 RuntimeError (Some "handler broke").

End Scenario.

(** ** Labels without placeholders *)

(** No percent sign anywhere in the template. *)
Fixpoint no_percent (template : string) : bool :=
  match template with
  | EmptyString => true
  | String c rest => negb (Ascii.eqb c percent) && no_percent rest
  end.

(** What the guard does with the exception [e] the guarded code raised in
    the world [w1]: line 40 of [__exit__] and line 62 of [protect],
    [self.error_handler(self.label % self.params, e)]. *)
Definition report (self : AllowFail.t) (e : exc_obj) : M unit :=
  lbl <- str_mod (label self) (params self) ;; error_handler self lbl e.

(** ** More guards and functions to run the code on *)
Module Usage.

(** A guard with a plain label and no params. *)
Definition plain_guard : AllowFail.t :=
  __init__ "loading the configuration" []
    (mk_options (Some TestUsage.log_handler) None).

(** A second guard, put around a guarded function or a guarded block. *)
Definition outer_guard : AllowFail.t :=
  __init__ "outer %s" [VStr "guard"]
    (mk_options (Some TestUsage.log_handler) None).

(** A guard in block mode whose handler fails. *)
Definition inner_failing_guard : AllowFail.t :=
  __init__ "inner %s" [VStr "guard"]
    (mk_options (Some Scenario.failing_handler) None).

(** A function that returns the exception it builds instead of raising. *)
Definition returns_error : pyfunc :=
  mk_func (Some "returns_error") (Some "returns_error") None
    "<function returns_error>"
    (fun _ _ => e <- instantiate ValueError (Some "returned") ;;
                ret (VExc e)).

(** The [warning] method of a logger object that cannot write. *)
Definition broken_warning : string -> list value -> M unit :=
  fun _ _ => e <- instantiate RuntimeError (Some "disk full") ;; raise e.

End Usage.

(** * Properties *)

(** ** The unit tests of the source *)

Example test_decorator_valueerror :
  f_call (__call__ (__init__ "test %s" [VStr "valueerror"]
                      (mk_options (Some TestUsage.log_handler) None))
            TestUsage.valueerror) [] [] TestUsage.setUp
  = (Normal (AllowFailResult false
               (VExc (mk_exc 0 ValueError (Some "test exception")))),
     mk_world []
       [([VStr "test valueerror";
          VExc (mk_exc 0 ValueError (Some "test exception"))], [])]
       1).
Proof. reflexivity. Qed.

Example test_decorator_func :
  f_call (__call__ (__init__ "test %s" [VStr "func"]
                      (mk_options (Some TestUsage.log_handler) None))
            TestUsage.func) [] [] TestUsage.setUp
  = (Normal (AllowFailResult true (VInt 1)), TestUsage.setUp).
Proof. reflexivity. Qed.

Example test_contextmanager :
  with_stmt (__init__ "test %s" [VStr "contextmanager"]
               (mk_options (Some TestUsage.log_handler) None))
    (e <- instantiate ValueError None ;; raise e) TestUsage.setUp
  = (Normal tt,
     mk_world []
       [([VStr "test contextmanager"; VExc (mk_exc 0 ValueError None)], [])]
       1).
Proof. reflexivity. Qed.

(** ** Interpolation of the two templates the guard itself uses *)

Lemma append_empty_r (s : string) : s ++ "" = s.
Proof. induction s as [|c s IH]; simpl; [reflexivity | now rewrite IH]. Qed.

Lemma interpolate_on_error_message (lbl : string) (err : exc_obj) :
  interpolate "%s got an error: %s" [VStr lbl; VExc err]
  = Formatted (lbl ++ " got an error: " ++ str_exc err).
Proof. simpl. now rewrite append_empty_r. Qed.

Lemma interpolate_handler_label (name : string) :
  interpolate "On error handler: %s" [VStr name]
  = Formatted ("On error handler: " ++ name).
Proof. simpl. now rewrite append_empty_r. Qed.

(** ** The monad's steps *)

Lemma str_mod_formatted template params lbl w :
  interpolate template params = Formatted lbl ->
  str_mod template params w = (Normal lbl, w).
Proof. intros H. unfold str_mod. now rewrite H. Qed.

Lemma str_mod_error template params cls msg w :
  interpolate template params = FormatError cls msg ->
  str_mod template params w
  = (Raised (mk_exc (next_id w) cls (Some msg)), allocated w).
Proof. intros H. unfold str_mod. now rewrite H. Qed.

(** The default handler on a logger of the logging module. *)
Lemma on_error_getLogger name lbl err w :
  on_error (getLogger name) lbl err w
  = (Normal tt,
     logged (mk_record name WARNING (lbl ++ " got an error: " ++ str_exc err))
       w).
Proof.
  unfold on_error, Logger_warning.
  now rewrite interpolate_on_error_message.
Qed.

(** [__exit__] of the fallback guard with an exception in flight. *)
Lemma exit_fallback_guard func cls e2 trbk w :
  __exit__ (__init__ "On error handler: %s" [VStr (f_name func)] no_options)
    (Some cls) (Some e2) trbk w
  = (Normal true, logged (handler_failure_record func e2) w).
Proof.
  unfold __exit__, __init__, no_options.
  cbn [label params error_handler logger opt_on_error opt_logger].
  unfold bind at 1. unfold ret at 1.
  unfold bind at 1.
  rewrite (str_mod_formatted _ _ _ w (interpolate_handler_label _)).
  unfold bind, cls_logger. rewrite on_error_getLogger. reflexivity.
Qed.

(** The fallback guard never lets anything out of its block. *)
Lemma with_stmt_fallback_guard func (body : M unit) w :
  with_stmt (__init__ "On error handler: %s" [VStr (f_name func)] no_options)
    body w
  = (Normal tt,
     match body w with
     | (Normal _, w1) => w1
     | (Raised e2, w1) => logged (handler_failure_record func e2) w1
     end).
Proof.
  unfold with_stmt, __enter__. unfold bind at 1. unfold ret at 1.
  destruct (body w) as [[u | e2] w1]; [reflexivity |].
  now rewrite exit_fallback_guard.
Qed.

(** What [protect] does once [func] has raised a catchable [e]. *)
Lemma protect_raised self func args kwg w e w1 :
  f_call func args kwg w = (Raised e, w1) ->
  isinstance e Exception = true ->
  protect self func args kwg w
  = (Normal (AllowFailResult false (VExc e)),
     match (lbl <- str_mod (label self) (params self) ;;
            error_handler self lbl e) w1 with
     | (Normal _, w2) => w2
     | (Raised e2, w2) => logged (handler_failure_record func e2) w2
     end).
Proof.
  intros Hcall Hexc. unfold protect, try_except.
  unfold bind at 1. rewrite Hcall, Hexc.
  unfold bind at 1. rewrite with_stmt_fallback_guard. reflexivity.
Qed.

(** What [__exit__] does with an exception instance in flight. *)
Lemma exit_with_instance self cls e trbk w :
  __exit__ self (Some cls) (Some e) trbk w
  = match (lbl <- str_mod (label self) (params self) ;;
           error_handler self lbl e) w with
    | (Normal _, w2) => (Normal true, w2)
    | (Raised e2, w2) => (Raised e2, w2)
    end.
Proof.
  unfold __exit__. unfold bind at 1. unfold ret at 1.
  unfold bind at 1 3.
  destruct (str_mod (label self) (params self) w) as [[lbl | e2] w2];
    [| reflexivity].
  unfold bind, ret. now destruct (error_handler self lbl e w2) as [[u | e2] w3].
Qed.

(** What the [with] statement does when its block raises. *)
Lemma with_stmt_raised mgr (body : M unit) w e w1 :
  body w = (Raised e, w1) ->
  with_stmt mgr body w
  = match (lbl <- str_mod (label mgr) (params mgr) ;;
           error_handler mgr lbl e) w1 with
    | (Normal _, w2) => (Normal tt, w2)
    | (Raised e2, w2) => (Raised e2, w2)
    end.
Proof.
  intros Hbody. unfold with_stmt, __enter__. unfold bind at 1. unfold ret at 1.
  rewrite Hbody, exit_with_instance.
  now destruct ((lbl <- str_mod (label mgr) (params mgr) ;;
                 error_handler mgr lbl e) w1) as [[u | e2] w2].
Qed.

(** ** Decorator mode *)

(** C1 (amended).  When [func] raises an exception [e] of a class below
    [Exception], the wrapped call does not raise: it returns the result
    [ok=False] holding [e] itself.  When the label interpolates with the
    stored params, the configured handler has been called before that, once,
    with the interpolated label and [e] itself, in the world [func] left;
    what the handler raises, if anything, is logged by the fallback guard.
    When the interpolation fails, the handler is not called and the
    fallback guard logs the formatting error. *)
Theorem protect_returns_failure self func args kwg w e w1 :
  f_call func args kwg w = (Raised e, w1) ->
  isinstance e Exception = true ->
  exists w2,
    f_call (__call__ self func) args kwg w
    = (Normal (AllowFailResult false (VExc e)), w2)
    /\ (forall lbl,
          interpolate (label self) (params self) = Formatted lbl ->
          w2 = match error_handler self lbl e w1 with
               | (Normal _, wh) => wh
               | (Raised e2, wh) => logged (handler_failure_record func e2) wh
               end)
    /\ (forall cls msg,
          interpolate (label self) (params self) = FormatError cls msg ->
          w2 = logged (handler_failure_record func
                         (mk_exc (next_id w1) cls (Some msg)))
                 (allocated w1)).
Proof.
  intros Hcall Hexc. eexists. split.
  - cbn [f_call __call__]. apply (protect_raised _ _ _ _ _ _ _ Hcall Hexc).
  - split.
    + intros lbl Hfmt. unfold bind.
      now rewrite (str_mod_formatted _ _ _ _ Hfmt).
    + intros cls msg Hfmt. unfold bind.
      now rewrite (str_mod_error _ _ _ _ _ Hfmt).
Qed.

(** C2.  When [func] returns [v], the wrapped call returns the result
    [ok=True] holding [v], and leaves the world exactly as [func] left it:
    whatever the handler is, it is not called and nothing is logged. *)
Theorem protect_returns_success self func args kwg w v w1 :
  f_call func args kwg w = (Normal v, w1) ->
  f_call (__call__ self func) args kwg w
  = (Normal (AllowFailResult true v), w1).
Proof.
  intros Hcall. cbn [f_call __call__]. unfold protect, try_except, bind.
  now rewrite Hcall.
Qed.

(** C4.  When [func] raises a catchable [e] and the handler, called with
    the interpolated label and [e], raises [e2] in turn, the wrapped call
    still returns the result [ok=False] holding [e]; [e2] goes no further
    than one WARNING entry whose text starts with the fallback label
    naming [func]: by its [__name__], else its [func_name], else
    [str(func)]. *)
Theorem protect_survives_handler_failure self func args kwg w e w1 lbl e2 w2 :
  f_call func args kwg w = (Raised e, w1) ->
  isinstance e Exception = true ->
  interpolate (label self) (params self) = Formatted lbl ->
  error_handler self lbl e w1 = (Raised e2, w2) ->
  f_call (__call__ self func) args kwg w
  = (Normal (AllowFailResult false (VExc e)),
     mk_world
       (sink w2 ++
        [mk_record "OnError" WARNING
           ("On error handler: " ++ f_name func ++ " got an error: "
            ++ str_exc e2)])
       (cache w2) (next_id w2))
  /\ (forall n, f___name__ func = Some n -> f_name func = n)
  /\ (forall n, f___name__ func = None -> f_func_name func = Some n ->
                f_name func = n)
  /\ (f___name__ func = None -> f_func_name func = None ->
      f_name func = f_str func).
Proof.
  intros Hcall Hexc Hfmt Hh. split.
  - cbn [f_call __call__]. rewrite (protect_raised _ _ _ _ _ _ _ Hcall Hexc).
    unfold bind. now rewrite (str_mod_formatted _ _ _ _ Hfmt), Hh.
  - unfold f_name. repeat split.
    + intros n Hn. now rewrite Hn.
    + intros n Hn Hf. now rewrite Hn, Hf.
    + intros Hn Hf. now rewrite Hn, Hf.
Qed.

(** C8.  The guard that reports a failing custom handler is built anew with
    no option: its handler is the default [on_error] and its logger the
    class-wide channel OnError.  Whatever handler [h] and logger [lg] the
    original guard was given, the report is made by that default handler
    from the world [h] left: [h] is not called again and [lg] not at all. *)
Theorem protect_fallback_is_default_guard
    lab pars (h : handler) (lg : Logger) func args kwg w e w1 lbl e2 w2 :
  f_call func args kwg w = (Raised e, w1) ->
  isinstance e Exception = true ->
  interpolate lab pars = Formatted lbl ->
  h lbl e w1 = (Raised e2, w2) ->
  let fallback :=
    __init__ "On error handler: %s" [VStr (f_name func)] no_options in
  f_call (__call__ (__init__ lab pars (mk_options (Some h) (Some lg))) func)
    args kwg w
  = (Normal (AllowFailResult false (VExc e)),
     snd (error_handler fallback ("On error handler: " ++ f_name func) e2 w2))
  /\ error_handler fallback = on_error (getLogger "OnError")
  /\ logger fallback = getLogger "OnError"
  /\ snd (error_handler fallback ("On error handler: " ++ f_name func) e2 w2)
     = logged
         (mk_record "OnError" WARNING
            ("On error handler: " ++ f_name func ++ " got an error: "
             ++ str_exc e2))
         w2.
Proof.
  intros Hcall Hexc Hfmt Hh fallback.
  assert (Hdef : error_handler fallback
                   ("On error handler: " ++ f_name func) e2 w2
                 = (Normal tt, logged (handler_failure_record func e2) w2)).
  { unfold fallback, __init__, no_options.
    cbn [error_handler opt_on_error opt_logger]. unfold cls_logger.
    now rewrite on_error_getLogger. }
  split; [| split; [reflexivity | split; [reflexivity |]]].
  - cbn [f_call __call__]. rewrite (protect_raised _ _ _ _ _ _ _ Hcall Hexc).
    unfold __init__ at 1 2 3. cbn [label params error_handler opt_on_error].
    unfold bind. rewrite (str_mod_formatted _ _ _ _ Hfmt), Hh, Hdef.
    reflexivity.
  - now rewrite Hdef.
Qed.

(** ** Scoped-block mode *)

(** C3 (amended).  When the block raises [e], the label interpolates with
    the stored params and the handler, called with the interpolated label
    and [e], returns normally, the [with] statement completes normally: [e]
    is swallowed, and the world is the one that single handler call left. *)
Theorem with_stmt_suppresses_failure mgr (body : M unit) w e w1 lbl w2 :
  body w = (Raised e, w1) ->
  interpolate (label mgr) (params mgr) = Formatted lbl ->
  error_handler mgr lbl e w1 = (Normal tt, w2) ->
  with_stmt mgr body w = (Normal tt, w2).
Proof.
  intros Hbody Hfmt Hh. rewrite (with_stmt_raised _ _ _ _ _ Hbody).
  unfold bind. now rewrite (str_mod_formatted _ _ _ _ Hfmt), Hh.
Qed.

(** C5 (amended).  A label that does not interpolate raises out of the
    [with] statement of scoped-block mode, in place of the exception of the
    block.  In decorator mode the interpolation is evaluated inside the
    block of the fallback guard: its error is logged there, the handler is
    not called, and the wrapped call still returns the result [ok=False]
    holding the error of [func]. *)
Theorem label_error_escapes_block_only self func args kwg (body : M unit)
    w e w1 cls msg :
  interpolate (label self) (params self) = FormatError cls msg ->
  (body w = (Raised e, w1) ->
   with_stmt self body w
   = (Raised (mk_exc (next_id w1) cls (Some msg)), allocated w1))
  /\ (f_call func args kwg w = (Raised e, w1) ->
      isinstance e Exception = true ->
      f_call (__call__ self func) args kwg w
      = (Normal (AllowFailResult false (VExc e)),
         logged
           (mk_record "OnError" WARNING
              ("On error handler: " ++ f_name func ++ " got an error: " ++ msg))
           (allocated w1))).
Proof.
  intros Hfmt. split.
  - intros Hbody. rewrite (with_stmt_raised _ _ _ _ _ Hbody).
    unfold bind. now rewrite (str_mod_error _ _ _ _ _ Hfmt).
  - intros Hcall Hexc. cbn [f_call __call__].
    rewrite (protect_raised _ _ _ _ _ _ _ Hcall Hexc).
    unfold bind. now rewrite (str_mod_error _ _ _ _ _ Hfmt).
Qed.

(** C6.  [__exit__] called with a failure kind [cls] and no value goes on
    exactly as if it had been given a new instance of [cls] built with no
    argument; when the label interpolates, that instance is what the
    handler is called with. *)
Theorem exit_instantiates_missing_value self cls trbk w :
  __exit__ self (Some cls) None trbk w
  = __exit__ self (Some cls) (Some (mk_exc (next_id w) cls None)) trbk
      (allocated w)
  /\ (forall lbl,
        interpolate (label self) (params self) = Formatted lbl ->
        __exit__ self (Some cls) None trbk w
        = (error_handler self lbl (mk_exc (next_id w) cls None) ;; ret true)
            (allocated w))
  /\ exc_type (mk_exc (next_id w) cls None) = cls
  /\ exc_message (mk_exc (next_id w) cls None) = None.
Proof.
  split; [reflexivity | split; [| split; reflexivity]].
  intros lbl Hfmt. unfold __exit__. unfold bind at 1.
  unfold instantiate at 1. unfold bind at 1.
  now rewrite (str_mod_formatted _ _ _ _ Hfmt).
Qed.

(** C9.  The decorator catches [Exception] only: an exception of [func]
    whose class is not below [Exception] comes out of the wrapped call as
    it is, in the world [func] left.  [__exit__], whenever it returns,
    returns [True], so the [with] statement swallows an exception of any
    class once the handler has returned. *)
Theorem decorator_and_block_catch_differently self func args kwg
    (body : M unit) w e w1 :
  isinstance e Exception = false ->
  (f_call func args kwg w = (Raised e, w1) ->
   f_call (__call__ self func) args kwg w = (Raised e, w1))
  /\ (forall typ val trbk w0 r w',
        __exit__ self typ val trbk w0 = (Normal r, w') -> r = true)
  /\ (forall lbl w2,
        body w = (Raised e, w1) ->
        interpolate (label self) (params self) = Formatted lbl ->
        error_handler self lbl e w1 = (Normal tt, w2) ->
        with_stmt self body w = (Normal tt, w2)).
Proof.
  intros Hexc. split; [| split].
  - intros Hcall. cbn [f_call __call__]. unfold protect, try_except, bind.
    now rewrite Hcall, Hexc.
  - intros typ val trbk w0 r w'. unfold __exit__.
    destruct typ as [cls |]; [| unfold ret; congruence].
    unfold bind, ret, instantiate.
    destruct val as [v |].
    + destruct (str_mod (label self) (params self) w0) as [[lbl | ex] wb];
        [| congruence].
      destruct (error_handler self lbl v wb) as [[u | ex] wc]; congruence.
    + destruct (str_mod (label self) (params self) (allocated w0))
        as [[lbl | ex] wb]; [| congruence].
      destruct (error_handler self lbl _ wb) as [[u | ex] wc]; congruence.
  - intros lbl w2 Hbody Hfmt Hh. rewrite (with_stmt_raised _ _ _ _ _ Hbody).
    unfold bind. now rewrite (str_mod_formatted _ _ _ _ Hfmt), Hh.
Qed.

(** C10.  In scoped-block mode nothing guards the report: when the block
    raises [e] and the handler, called with the interpolated label and
    [e], raises [e2], the [with] statement raises [e2]; when the label
    does not interpolate, it raises the formatting error. *)
Theorem with_stmt_lets_report_failure_out mgr (body : M unit) w e w1 :
  body w = (Raised e, w1) ->
  (forall lbl e2 w2,
     interpolate (label mgr) (params mgr) = Formatted lbl ->
     error_handler mgr lbl e w1 = (Raised e2, w2) ->
     with_stmt mgr body w = (Raised e2, w2))
  /\ (forall cls msg,
        interpolate (label mgr) (params mgr) = FormatError cls msg ->
        with_stmt mgr body w
        = (Raised (mk_exc (next_id w1) cls (Some msg)), allocated w1)).
Proof.
  intros Hbody. rewrite (with_stmt_raised _ _ _ _ _ Hbody). split.
  - intros lbl e2 w2 Hfmt Hh. unfold bind.
    now rewrite (str_mod_formatted _ _ _ _ Hfmt), Hh.
  - intros cls msg Hfmt. unfold bind.
    now rewrite (str_mod_error _ _ _ _ _ Hfmt).
Qed.

(** ** The default handler *)

(** C7.  A guard built with no [on_error] option reports a failure with
    one call of [warning] on its logger: with no [logger] option either,
    that is one WARNING entry on the channel OnError, reading
    "<label> got an error: <error>"; with a logger of the logging module,
    the same entry on that logger's channel; with any other logger object,
    one call of its [warning] method with the message template and the two
    arguments.  So a failure under a guard built with no option at all, of
    the wrapped function or of the block, adds that one entry with the
    interpolated label to what the channel OnError received, and nothing
    else to the world the failing code left. *)
Theorem default_handler_writes_one_warning lab pars lbl err w :
  error_handler (__init__ lab pars no_options) lbl err w
  = (Normal tt,
     mk_world
       (sink w ++
        [mk_record "OnError" WARNING (lbl ++ " got an error: " ++ str_exc err)])
       (cache w) (next_id w))
  /\ (forall name,
        error_handler
          (__init__ lab pars (mk_options None (Some (getLogger name))))
          lbl err w
        = (Normal tt,
           mk_world
             (sink w ++
              [mk_record name WARNING
                 (lbl ++ " got an error: " ++ str_exc err)])
             (cache w) (next_id w)))
  /\ (forall warning,
        error_handler
          (__init__ lab pars (mk_options None (Some (CustomLogger warning))))
          lbl err w
        = warning "%s got an error: %s" [VStr lbl; VExc err] w)
  /\ (forall func args kwg e w1,
        f_call func args kwg w = (Raised e, w1) ->
        isinstance e Exception = true ->
        interpolate lab pars = Formatted lbl ->
        f_call (__call__ (__init__ lab pars no_options) func) args kwg w
        = (Normal (AllowFailResult false (VExc e)),
           mk_world
             (sink w1 ++
              [mk_record "OnError" WARNING
                 (lbl ++ " got an error: " ++ str_exc e)])
             (cache w1) (next_id w1)))
  /\ (forall (body : M unit) e w1,
        body w = (Raised e, w1) ->
        interpolate lab pars = Formatted lbl ->
        with_stmt (__init__ lab pars no_options) body w
        = (Normal tt,
           mk_world
             (sink w1 ++
              [mk_record "OnError" WARNING
                 (lbl ++ " got an error: " ++ str_exc e)])
             (cache w1) (next_id w1))).
Proof.
  assert (Hdef : forall l x w0,
            error_handler (__init__ lab pars no_options) l x w0
            = (Normal tt,
               logged
                 (mk_record "OnError" WARNING
                    (l ++ " got an error: " ++ str_exc x)) w0)).
  { intros l x w0. unfold __init__, no_options, cls_logger.
    cbn [error_handler opt_on_error opt_logger].
    now rewrite on_error_getLogger. }
  split; [apply Hdef | split; [| split; [| split]]].
  - intros name. unfold __init__.
    cbn [error_handler opt_on_error opt_logger].
    now rewrite on_error_getLogger.
  - reflexivity.
  - intros func args kwg e w1 Hcall Hexc Hfmt. cbn [f_call __call__].
    rewrite (protect_raised _ _ _ _ _ _ _ Hcall Hexc).
    unfold bind. change (label (__init__ lab pars no_options)) with lab.
    change (params (__init__ lab pars no_options)) with pars.
    now rewrite (str_mod_formatted _ _ _ _ Hfmt), Hdef.
  - intros body e w1 Hbody Hfmt. rewrite (with_stmt_raised _ _ _ _ _ Hbody).
    unfold bind. change (label (__init__ lab pars no_options)) with lab.
    change (params (__init__ lab pars no_options)) with pars.
    now rewrite (str_mod_formatted _ _ _ _ Hfmt), Hdef.
Qed.

(** ** The code run on examples *)

(** C1 as first stated fails where the label does not interpolate: the
    wrapped call returns the failure of [func], but the recording handler
    of the guard has not been called, with any label. *)
Lemma bad_label_skips_handler :
  f_call TestUsage.valueerror [] [] TestUsage.setUp
  = (Raised Scenario.test_error, Scenario.after_raise)
  /\ isinstance Scenario.test_error Exception = true
  /\ error_handler Scenario.bad_label_guard = TestUsage.log_handler
  /\ f_call (__call__ Scenario.bad_label_guard TestUsage.valueerror) [] []
       TestUsage.setUp
     = (Normal (AllowFailResult false (VExc Scenario.test_error)),
        mk_world
          [mk_record "OnError" WARNING
             ("On error handler: valueerror got an error: "
              ++ "not enough arguments for format string")]
          [] 2)
  /\ ~ (exists lbl w2,
          f_call (__call__ Scenario.bad_label_guard TestUsage.valueerror)
            [] [] TestUsage.setUp
          = (Normal (AllowFailResult false (VExc Scenario.test_error)), w2)
          /\ In ([VStr lbl; VExc Scenario.test_error], []) (cache w2)).
Proof.
  repeat split.
  intros (lbl & w2 & Hrun & Hin).
  vm_compute in Hrun. inversion Hrun as [Hw]. subst w2. exact Hin.
Qed.

Lemma protect_returns_failure_witness :
  exists w2,
    f_call (__call__ (Scenario.test_guard "valueerror") TestUsage.valueerror)
      [] [] TestUsage.setUp
    = (Normal (AllowFailResult false (VExc Scenario.test_error)), w2)
    /\ w2 = mk_world []
              [([VStr "test valueerror"; VExc Scenario.test_error], [])] 1.
Proof.
  destruct (protect_returns_failure (Scenario.test_guard "valueerror")
              TestUsage.valueerror [] [] TestUsage.setUp
              Scenario.test_error Scenario.after_raise
              eq_refl eq_refl) as (w2 & Hrun & Hcalled & _).
  exists w2. split; [exact Hrun |].
  rewrite (Hcalled "test valueerror" eq_refl). reflexivity.
Defined.

Lemma protect_returns_success_witness :
  f_call (__call__ (Scenario.test_guard "func") TestUsage.func) [] []
    TestUsage.setUp
  = (Normal (AllowFailResult true (VInt 1)), TestUsage.setUp).
Proof.
  apply (protect_returns_success (Scenario.test_guard "func") TestUsage.func
           [] [] TestUsage.setUp (VInt 1) TestUsage.setUp).
  reflexivity.
Defined.

(** C3 as first stated fails where the report itself fails: the exception
    of the handler, or the formatting error of the label, comes out of the
    [with] statement. *)
Lemma report_failure_escapes_block :
  Scenario.raise_ValueError TestUsage.setUp
  = (Raised (mk_exc 0 ValueError None), Scenario.after_raise)
  /\ with_stmt Scenario.failing_guard Scenario.raise_ValueError
       TestUsage.setUp
     = (Raised Scenario.handler_error, mk_world [] [] 2)
  /\ with_stmt Scenario.bad_label_guard Scenario.raise_ValueError
       TestUsage.setUp
     = (Raised
          (mk_exc 1 TypeError (Some "not enough arguments for format string")),
        mk_world [] [] 2)
  /\ ~ (exists w2,
          with_stmt Scenario.failing_guard Scenario.raise_ValueError
            TestUsage.setUp
          = (Normal tt, w2)).
Proof.
  repeat split. intros (w2 & Hrun). vm_compute in Hrun. discriminate Hrun.
Qed.

Lemma with_stmt_suppresses_failure_witness :
  with_stmt (Scenario.test_guard "contextmanager") Scenario.raise_ValueError
    TestUsage.setUp
  = (Normal tt,
     mk_world []
       [([VStr "test contextmanager"; VExc (mk_exc 0 ValueError None)], [])]
       1).
Proof.
  apply (with_stmt_suppresses_failure (Scenario.test_guard "contextmanager")
           Scenario.raise_ValueError TestUsage.setUp
           (mk_exc 0 ValueError None) Scenario.after_raise
           "test contextmanager"); reflexivity.
Defined.

Lemma protect_survives_handler_failure_witness :
  f_call (__call__ Scenario.failing_guard Scenario.nameless) [] []
    TestUsage.setUp
  = (Normal (AllowFailResult false
               (VExc (mk_exc 0 ValueError (Some "no name")))),
     mk_world
       [mk_record "OnError" WARNING
          "On error handler: <Job object> got an error: handler broke"]
       [] 2)
  /\ f_name Scenario.nameless = "<Job object>".
Proof.
  destruct (protect_survives_handler_failure Scenario.failing_guard
              Scenario.nameless [] [] TestUsage.setUp
              (mk_exc 0 ValueError (Some "no name")) Scenario.after_raise
              "test valueerror" Scenario.handler_error (mk_world [] [] 2)
              eq_refl eq_refl eq_refl eq_refl)
    as (Hrun & _ & _ & Hstr).
  split; [exact Hrun | exact (Hstr eq_refl eq_refl)].
Defined.

(** C5 as first stated fails in decorator mode: the formatting error of a
    label with a param left over does not come out of the wrapped call,
    which returns normally; the fallback guard has logged it. *)
Lemma label_error_contained_by_decorator :
  interpolate (label Scenario.surplus_param_guard)
    (params Scenario.surplus_param_guard)
  = FormatError TypeError
      "not all arguments converted during string formatting"
  /\ f_call TestUsage.valueerror [] [] TestUsage.setUp
     = (Raised Scenario.test_error, Scenario.after_raise)
  /\ f_call (__call__ Scenario.surplus_param_guard TestUsage.valueerror)
       [] [] TestUsage.setUp
     = (Normal (AllowFailResult false (VExc Scenario.test_error)),
        mk_world
          [mk_record "OnError" WARNING
             ("On error handler: valueerror got an error: "
              ++ "not all arguments converted during string formatting")]
          [] 2)
  /\ ~ (exists e2 w2,
          f_call (__call__ Scenario.surplus_param_guard TestUsage.valueerror)
            [] [] TestUsage.setUp
          = (Raised e2, w2)).
Proof.
  repeat split. intros (e2 & w2 & Hrun). vm_compute in Hrun.
  discriminate Hrun.
Qed.

Lemma label_error_escapes_block_only_witness :
  with_stmt Scenario.bad_label_guard Scenario.raise_ValueError TestUsage.setUp
  = (Raised
       (mk_exc 1 TypeError (Some "not enough arguments for format string")),
     mk_world [] [] 2)
  /\ f_call (__call__ Scenario.bad_label_guard TestUsage.valueerror) [] []
       TestUsage.setUp
     = (Normal (AllowFailResult false (VExc Scenario.test_error)),
        mk_world
          [mk_record "OnError" WARNING
             ("On error handler: valueerror got an error: "
              ++ "not enough arguments for format string")]
          [] 2).
Proof.
  split.
  - apply (proj1 (label_error_escapes_block_only Scenario.bad_label_guard
                    TestUsage.valueerror [] [] Scenario.raise_ValueError
                    TestUsage.setUp (mk_exc 0 ValueError None)
                    Scenario.after_raise TypeError
                    "not enough arguments for format string" eq_refl)).
    reflexivity.
  - apply (proj2 (label_error_escapes_block_only Scenario.bad_label_guard
                    TestUsage.valueerror [] [] Scenario.raise_ValueError
                    TestUsage.setUp Scenario.test_error
                    Scenario.after_raise TypeError
                    "not enough arguments for format string" eq_refl));
      reflexivity.
Defined.

Lemma exit_instantiates_missing_value_witness :
  __exit__ (Scenario.test_guard "x") (Some StopIteration) None None
    TestUsage.setUp
  = (Normal true,
     mk_world [] [([VStr "test x"; VExc (mk_exc 0 StopIteration None)], [])] 1).
Proof.
  rewrite (proj1 (proj2 (exit_instantiates_missing_value
                           (Scenario.test_guard "x") StopIteration None
                           TestUsage.setUp))
             "test x" eq_refl).
  reflexivity.
Defined.

Lemma default_handler_writes_one_warning_witness :
  f_call (__call__ Scenario.default_guard TestUsage.valueerror) [] []
    TestUsage.setUp
  = (Normal (AllowFailResult false (VExc Scenario.test_error)),
     mk_world
       [mk_record "OnError" WARNING
          "test default got an error: test exception"]
       [] 1)
  /\ with_stmt Scenario.default_guard Scenario.raise_ValueError
       TestUsage.setUp
     = (Normal tt,
        mk_world [mk_record "OnError" WARNING "test default got an error: "]
          [] 1).
Proof.
  destruct (default_handler_writes_one_warning "test %s" [VStr "default"]
              "test default" Scenario.test_error TestUsage.setUp)
    as (_ & _ & _ & Hdeco & Hblock).
  split.
  - apply (Hdeco TestUsage.valueerror [] [] Scenario.test_error
             Scenario.after_raise); reflexivity.
  - apply (Hblock Scenario.raise_ValueError (mk_exc 0 ValueError None)
             Scenario.after_raise); reflexivity.
Defined.

Lemma protect_fallback_is_default_guard_witness :
  f_call (__call__ Scenario.failing_guard TestUsage.valueerror) [] []
    TestUsage.setUp
  = (Normal (AllowFailResult false (VExc Scenario.test_error)),
     mk_world
       [mk_record "OnError" WARNING
          "On error handler: valueerror got an error: handler broke"]
       [] 2).
Proof.
  destruct (protect_fallback_is_default_guard "test %s" [VStr "valueerror"]
              Scenario.failing_handler Scenario.recording_logger
              TestUsage.valueerror [] [] TestUsage.setUp
              Scenario.test_error Scenario.after_raise "test valueerror"
              Scenario.handler_error (mk_world [] [] 2)
              eq_refl eq_refl eq_refl eq_refl)
    as (Hrun & _ & _ & Hlog).
  unfold Scenario.failing_guard. rewrite Hrun, Hlog. reflexivity.
Defined.

Lemma decorator_and_block_catch_differently_witness :
  isinstance Scenario.interrupt Exception = false
  /\ f_call (__call__ (Scenario.test_guard "x") Scenario.interrupted) [] []
       TestUsage.setUp
     = (Raised Scenario.interrupt, Scenario.after_raise)
  /\ with_stmt (Scenario.test_guard "x") Scenario.raise_KeyboardInterrupt
       TestUsage.setUp
     = (Normal tt,
        mk_world [] [([VStr "test x"; VExc Scenario.interrupt], [])] 1).
Proof.
  destruct (decorator_and_block_catch_differently (Scenario.test_guard "x")
              Scenario.interrupted [] [] Scenario.raise_KeyboardInterrupt
              TestUsage.setUp Scenario.interrupt Scenario.after_raise
              eq_refl) as (Hdeco & _ & Hblock).
  split; [reflexivity | split].
  - apply Hdeco. reflexivity.
  - apply (Hblock "test x"); reflexivity.
Defined.

Lemma with_stmt_lets_report_failure_out_witness :
  with_stmt Scenario.failing_guard Scenario.raise_ValueError TestUsage.setUp
  = (Raised Scenario.handler_error, mk_world [] [] 2)
  /\ with_stmt Scenario.surplus_param_guard Scenario.raise_ValueError
       TestUsage.setUp
     = (Raised
          (mk_exc 1 TypeError
             (Some "not all arguments converted during string formatting")),
        mk_world [] [] 2).
Proof.
  split.
  - apply (proj1 (with_stmt_lets_report_failure_out Scenario.failing_guard
                    Scenario.raise_ValueError TestUsage.setUp
                    (mk_exc 0 ValueError None) Scenario.after_raise eq_refl)
             "test valueerror"); reflexivity.
  - apply (proj2 (with_stmt_lets_report_failure_out
                    Scenario.surplus_param_guard
                    Scenario.raise_ValueError TestUsage.setUp
                    (mk_exc 0 ValueError None) Scenario.after_raise eq_refl)
             TypeError "not all arguments converted during string formatting").
    reflexivity.
Defined.

(** * Further properties of the guard *)

(** ** The two modes, case by case *)

Lemma protect_cases self func args kwg w :
  protect self func args kwg w
  = match f_call func args kwg w with
    | (Normal v, w1) => (Normal (AllowFailResult true v), w1)
    | (Raised e, w1) =>
        if isinstance e Exception then
          (Normal (AllowFailResult false (VExc e)),
           match report self e w1 with
           | (Normal _, w2) => w2
           | (Raised e2, w2) => logged (handler_failure_record func e2) w2
           end)
        else (Raised e, w1)
    end.
Proof.
  destruct (f_call func args kwg w) as [[v | e] w1] eqn:Hcall.
  - unfold protect, try_except, bind. now rewrite Hcall.
  - destruct (isinstance e Exception) eqn:Hexc.
    + apply (protect_raised _ _ _ _ _ _ _ Hcall Hexc).
    + unfold protect, try_except, bind. now rewrite Hcall, Hexc.
Qed.

Lemma with_stmt_cases mgr (body : M unit) w :
  with_stmt mgr body w
  = match body w with
    | (Normal _, w1) => (Normal tt, w1)
    | (Raised e, w1) =>
        match report mgr e w1 with
        | (Normal _, w2) => (Normal tt, w2)
        | (Raised e2, w2) => (Raised e2, w2)
        end
    end.
Proof.
  destruct (body w) as [[u | e] w1] eqn:Hbody.
  - unfold with_stmt, __enter__. unfold bind at 1. unfold ret at 1.
    now rewrite Hbody.
  - apply (with_stmt_raised _ _ _ _ _ Hbody).
Qed.

Lemma report_formatted self e lbl w :
  interpolate (label self) (params self) = Formatted lbl ->
  report self e w = error_handler self lbl e w.
Proof.
  intros Hfmt. unfold report, bind.
  now rewrite (str_mod_formatted _ _ _ _ Hfmt).
Qed.

Lemma interpolate_no_percent template params :
  no_percent template = true ->
  interpolate template params
  = match params with
    | [] => Formatted template
    | _ :: _ =>
        FormatError TypeError
          "not all arguments converted during string formatting"
    end.
Proof.
  induction template as [| c rest IH]; simpl; [reflexivity |].
  intros Hno. apply andb_prop in Hno. destruct Hno as [Hc Hrest].
  apply negb_true_iff in Hc. rewrite Hc, (IH Hrest).
  now destruct params.
Qed.

(** ** Scoped-block mode *)

(** X1.  A block that completes normally goes through the guard untouched:
    the [with] statement completes normally in the world the block left,
    without the handler being called or the label being interpolated; and
    [__exit__] called with no exception type returns [True] and changes
    nothing, whatever value and traceback it is given. *)
Theorem with_stmt_transparent_on_success mgr (body : M unit) w u w1 :
  body w = (Normal u, w1) ->
  with_stmt mgr body w = (Normal tt, w1)
  /\ (forall val trbk w0, __exit__ mgr None val trbk w0 = (Normal true, w0)).
Proof.
  intros Hbody. split; [| reflexivity].
  now rewrite with_stmt_cases, Hbody.
Qed.

(** X4.  An exception comes out of the [with] statement only from the
    report: the block has raised some [e], and interpolating the label or
    calling the handler with [e] has raised what comes out.  The block's
    own exception never passes the guard as such. *)
Theorem with_stmt_raises_only_from_report mgr (body : M unit) w e' w' :
  with_stmt mgr body w = (Raised e', w')
  <-> exists e w1, body w = (Raised e, w1)
                   /\ report mgr e w1 = (Raised e', w').
Proof.
  rewrite with_stmt_cases. split.
  - destruct (body w) as [[u | e] w1]; [discriminate |].
    intros Hrun. exists e, w1. split; [reflexivity |].
    destruct (report mgr e w1) as [[u | e2] w2]; [discriminate | exact Hrun].
  - intros (e & w1 & Hbody & Hrep). now rewrite Hbody, Hrep.
Qed.

(** X6.  Guarded blocks nest.  When the report of the inner guard fails
    with [e2], the outer guard intercepts [e2] and reports it under its own
    label, and the nested statement completes normally once the outer
    handler has returned; when the inner statement completes normally, the
    outer guard does nothing. *)
Theorem nested_blocks_outer_reports_inner_failure
    outer inner (body : M unit) w e w1 lbl e2 w2 lbl' w3 :
  body w = (Raised e, w1) ->
  interpolate (label inner) (params inner) = Formatted lbl ->
  error_handler inner lbl e w1 = (Raised e2, w2) ->
  interpolate (label outer) (params outer) = Formatted lbl' ->
  error_handler outer lbl' e2 w2 = (Normal tt, w3) ->
  with_stmt outer (with_stmt inner body) w = (Normal tt, w3)
  /\ (forall (blk : M unit) w0 w0',
        with_stmt inner blk w0 = (Normal tt, w0') ->
        with_stmt outer (with_stmt inner blk) w0 = (Normal tt, w0')).
Proof.
  intros Hbody Hin Hh Hout Hh'. split.
  - rewrite (with_stmt_cases outer), (with_stmt_cases inner), Hbody.
    rewrite (report_formatted _ _ _ _ Hin), Hh.
    now rewrite (report_formatted _ _ _ _ Hout), Hh'.
  - intros blk w0 w0' Hrun. now rewrite (with_stmt_cases outer), Hrun.
Qed.

(** ** Decorator mode *)

(** X2.  What the wrapped call raises is exactly what [func] raised with a
    class that is not below [Exception], in the world [func] left: nothing
    the label or the handler does makes the wrapped call raise.  Of the
    classes modelled, those are [BaseException], [SystemExit],
    [KeyboardInterrupt] and [GeneratorExit]. *)
Theorem protect_raises_only_what_func_raised self func args kwg w e w' :
  (f_call (__call__ self func) args kwg w = (Raised e, w')
   <-> f_call func args kwg w = (Raised e, w')
       /\ isinstance e Exception = false)
  /\ (isinstance e Exception = false
      <-> In (exc_type e)
            [BaseException; SystemExit; KeyboardInterrupt; GeneratorExit]).
Proof.
  split.
  - cbn [f_call __call__]. rewrite protect_cases. split.
    + destruct (f_call func args kwg w) as [[v | e0] w1]; [discriminate |].
      destruct (isinstance e0 Exception) eqn:Hexc; [discriminate |].
      intros Hrun. inversion Hrun; subst. now split.
    + intros [Hcall Hexc]. now rewrite Hcall, Hexc.
  - unfold isinstance. destruct (exc_type e); simpl; split; intros H;
      try reflexivity; try discriminate; auto;
      repeat (destruct H as [H | H]; try discriminate H); contradiction.
Qed.

(** X3.  The flag of the result tells what happened.  When the wrapped
    call returns, either [func] returned [v] and the result is [ok=True]
    with [v], in the world [func] left, or [func] raised an exception [e]
    below [Exception] and the result is [ok=False] with [e].  A function
    that returns an exception object gets [ok=True]. *)
Theorem protect_result_tells_what_happened self func args kwg w r w' :
  f_call (__call__ self func) args kwg w = (Normal r, w') ->
  (exists v, f_call func args kwg w = (Normal v, w')
             /\ r = AllowFailResult true v)
  \/ (exists e w1, f_call func args kwg w = (Raised e, w1)
                   /\ isinstance e Exception = true
                   /\ r = AllowFailResult false (VExc e)).
Proof.
  cbn [f_call __call__]. rewrite protect_cases.
  destruct (f_call func args kwg w) as [[v | e] w1].
  - intros Hrun. inversion Hrun; subst. left. now exists v.
  - destruct (isinstance e Exception) eqn:Hexc; [| discriminate].
    intros Hrun. inversion Hrun; subst. right. now exists e, w1.
Qed.

(** X5.  Guards stack.  A guard put around a guarded function never sees a
    failure: whenever the inner wrapped call returns a result, the outer
    one returns [ok=True] holding that result, in the same world, its
    handler not called; what the inner call raises (an exception of [func]
    not below [Exception]) comes out of the outer call as well. *)
Theorem stacked_guards_outer_sees_success outer inner func args kwg w :
  f_call (__call__ outer (__call__ inner func)) args kwg w
  = match f_call (__call__ inner func) args kwg w with
    | (Normal r, w1) => (Normal (AllowFailResult true r), w1)
    | (Raised e, w1) => (Raised e, w1)
    end.
Proof.
  cbn [f_call __call__]. rewrite (protect_cases outer).
  cbn [f_call __call__]. rewrite (protect_cases inner).
  destruct (f_call func args kwg w) as [[v | e] w1]; [reflexivity |].
  destruct (isinstance e Exception) eqn:Hexc; [reflexivity |].
  now rewrite Hexc.
Qed.

(** ** The options of the constructor *)

(** X7.  The [logger] option matters to the default handler only: two
    guards built with the same label, params and [on_error] handler behave
    alike as decorators and as blocks, whatever [logger] option each was
    given, so a custom handler never writes through the guard's logger
    unless it does so itself. *)
Theorem custom_handler_ignores_logger
    lab pars (h : handler) (lg1 lg2 : option Logger) func args kwg
    (body : M unit) w :
  f_call (__call__ (__init__ lab pars (mk_options (Some h) lg1)) func)
    args kwg w
  = f_call (__call__ (__init__ lab pars (mk_options (Some h) lg2)) func)
      args kwg w
  /\ with_stmt (__init__ lab pars (mk_options (Some h) lg1)) body w
     = with_stmt (__init__ lab pars (mk_options (Some h) lg2)) body w.
Proof.
  split.
  - cbn [f_call __call__]. now rewrite !protect_cases.
  - now rewrite !with_stmt_cases.
Qed.

(** X10.  A logger object whose [warning] raises breaks the default
    handler in block mode only.  With no [on_error] option and such a
    logger, a failing block lets the logger's exception [e2] out of the
    [with] statement; a failing wrapped call still returns [ok=False] with
    the error of [func], and [e2] is logged on the channel OnError, not
    through the broken logger. *)
Theorem broken_logger_is_isolated_by_decorator_only
    lab pars lbl (warning : string -> list value -> M unit) func args kwg
    (body : M unit) w e w1 e2 w2 :
  interpolate lab pars = Formatted lbl ->
  warning "%s got an error: %s" [VStr lbl; VExc e] w1 = (Raised e2, w2) ->
  let self :=
    __init__ lab pars (mk_options None (Some (CustomLogger warning))) in
  (body w = (Raised e, w1) -> with_stmt self body w = (Raised e2, w2))
  /\ (f_call func args kwg w = (Raised e, w1) ->
      isinstance e Exception = true ->
      f_call (__call__ self func) args kwg w
      = (Normal (AllowFailResult false (VExc e)),
         mk_world
           (sink w2 ++
            [mk_record "OnError" WARNING
               ("On error handler: " ++ f_name func ++ " got an error: "
                ++ str_exc e2)])
           (cache w2) (next_id w2))).
Proof.
  intros Hfmt Hwarn self.
  assert (Hrep : report self e w1 = (Raised e2, w2)).
  { rewrite (report_formatted self e lbl w1 Hfmt). exact Hwarn. }
  split.
  - intros Hbody. now rewrite with_stmt_cases, Hbody, Hrep.
  - intros Hcall Hexc. cbn [f_call __call__].
    now rewrite protect_cases, Hcall, Hexc, Hrep.
Qed.

(** ** Labels *)

(** X8.  A label with no percent sign is reported as it is when the guard
    has no params: in both modes the handler is called with the label
    itself.  When the guard has params, such a label never reaches the
    handler: its interpolation fails with a [TypeError], the params being
    left over. *)
Theorem plain_label_reported_verbatim lab opts func args kwg
    (body : M unit) w e w1 :
  no_percent lab = true ->
  let self := __init__ lab [] opts in
  (body w = (Raised e, w1) ->
   with_stmt self body w
   = match error_handler self lab e w1 with
     | (Normal _, w2) => (Normal tt, w2)
     | (Raised e2, w2) => (Raised e2, w2)
     end)
  /\ (f_call func args kwg w = (Raised e, w1) ->
      isinstance e Exception = true ->
      f_call (__call__ self func) args kwg w
      = (Normal (AllowFailResult false (VExc e)),
         match error_handler self lab e w1 with
         | (Normal _, w2) => w2
         | (Raised e2, w2) => logged (handler_failure_record func e2) w2
         end))
  /\ (forall p pars,
        str_mod lab (p :: pars) w1
        = (Raised
             (mk_exc (next_id w1) TypeError
                (Some "not all arguments converted during string formatting")),
           allocated w1)).
Proof.
  intros Hno self.
  assert (Hrep : report self e w1 = error_handler self lab e w1).
  { apply report_formatted. apply (interpolate_no_percent lab [] Hno). }
  split; [| split].
  - intros Hbody. now rewrite with_stmt_cases, Hbody, Hrep.
  - intros Hcall Hexc. cbn [f_call __call__].
    now rewrite protect_cases, Hcall, Hexc, Hrep.
  - intros p pars. apply str_mod_error.
    apply (interpolate_no_percent lab (p :: pars) Hno).
Qed.

(** ** The recording handler of the unit tests *)

(** X9.  What [test_decorator] and [test_contextmanager] check, for every
    guarded function and block: under a guard whose handler is [log], one
    failure adds exactly one entry at the end of the cache, holding the
    interpolated label and the error itself and no keyword argument;
    nothing is logged and no object is made. *)
Theorem log_records_each_failure_once lab pars lg lbl func args kwg
    (body : M unit) w e w1 :
  interpolate lab pars = Formatted lbl ->
  let self :=
    __init__ lab pars (mk_options (Some TestUsage.log_handler) lg) in
  (f_call func args kwg w = (Raised e, w1) ->
   isinstance e Exception = true ->
   f_call (__call__ self func) args kwg w
   = (Normal (AllowFailResult false (VExc e)),
      mk_world (sink w1) (cache w1 ++ [([VStr lbl; VExc e], [])])
        (next_id w1)))
  /\ (body w = (Raised e, w1) ->
      with_stmt self body w
      = (Normal tt,
         mk_world (sink w1) (cache w1 ++ [([VStr lbl; VExc e], [])])
           (next_id w1))).
Proof.
  intros Hfmt self.
  assert (Hrep : report self e w1
                 = (Normal tt,
                    mk_world (sink w1)
                      (cache w1 ++ [([VStr lbl; VExc e], [])]) (next_id w1))).
  { now rewrite (report_formatted self e lbl w1 Hfmt). }
  split.
  - intros Hcall Hexc. cbn [f_call __call__].
    now rewrite protect_cases, Hcall, Hexc, Hrep.
  - intros Hbody. now rewrite with_stmt_cases, Hbody, Hrep.
Qed.

(** X11.  With the default handler and a logger of the logging module, the
    only exception that comes out of the [with] statement is the
    formatting error of a label that does not interpolate, raised after
    the block has failed; with a label that interpolates, such a guard
    never lets anything out. *)
Theorem default_block_raises_only_on_bad_label lab pars name (body : M unit)
    w e' w' :
  with_stmt (__init__ lab pars (mk_options None (Some (getLogger name))))
    body w
  = (Raised e', w')
  <-> exists e w1 cls msg,
        body w = (Raised e, w1)
        /\ interpolate lab pars = FormatError cls msg
        /\ e' = mk_exc (next_id w1) cls (Some msg)
        /\ w' = allocated w1.
Proof.
  rewrite with_stmt_cases. split.
  - destruct (body w) as [[u | e] w1]; [discriminate |].
    unfold report, bind, str_mod. cbn [label params error_handler __init__
      opt_on_error opt_logger].
    destruct (interpolate lab pars) as [lbl | cls msg] eqn:Hfmt.
    + unfold ret. rewrite on_error_getLogger. discriminate.
    + unfold bind, instantiate, raise. intros Hrun. inversion Hrun; subst.
      now exists e, w1, cls, msg.
  - intros (e & w1 & cls & msg & Hbody & Hfmt & -> & ->).
    rewrite Hbody. unfold report, bind.
    cbn [label params __init__].
    now rewrite (str_mod_error _ _ _ _ _ Hfmt).
Qed.

(** ** The further properties run on examples *)

Lemma with_stmt_transparent_on_success_witness :
  with_stmt (Scenario.test_guard "x") (ret tt) TestUsage.setUp
  = (Normal tt, TestUsage.setUp).
Proof.
  apply (proj1 (with_stmt_transparent_on_success (Scenario.test_guard "x")
                  (ret tt) TestUsage.setUp tt TestUsage.setUp eq_refl)).
Defined.

Lemma with_stmt_raises_only_from_report_witness :
  exists e w1,
    Scenario.raise_ValueError TestUsage.setUp = (Raised e, w1)
    /\ report Scenario.failing_guard e w1
       = (Raised Scenario.handler_error, mk_world [] [] 2).
Proof.
  apply (proj1 (with_stmt_raises_only_from_report Scenario.failing_guard
                  Scenario.raise_ValueError TestUsage.setUp
                  Scenario.handler_error (mk_world [] [] 2))).
  reflexivity.
Defined.

Lemma nested_blocks_outer_reports_inner_failure_witness :
  with_stmt Usage.outer_guard
    (with_stmt Usage.inner_failing_guard Scenario.raise_ValueError)
    TestUsage.setUp
  = (Normal tt,
     mk_world [] [([VStr "outer guard"; VExc Scenario.handler_error], [])] 2).
Proof.
  apply (proj1 (nested_blocks_outer_reports_inner_failure Usage.outer_guard
                  Usage.inner_failing_guard Scenario.raise_ValueError
                  TestUsage.setUp (mk_exc 0 ValueError None)
                  Scenario.after_raise "inner guard" Scenario.handler_error
                  (mk_world [] [] 2) "outer guard"
                  (mk_world []
                     [([VStr "outer guard"; VExc Scenario.handler_error], [])]
                     2)
                  eq_refl eq_refl eq_refl eq_refl eq_refl)).
Defined.

Lemma protect_raises_only_what_func_raised_witness :
  (f_call Scenario.interrupted [] [] TestUsage.setUp
   = (Raised Scenario.interrupt, Scenario.after_raise)
   /\ isinstance Scenario.interrupt Exception = false)
  /\ In (exc_type Scenario.interrupt)
       [BaseException; SystemExit; KeyboardInterrupt; GeneratorExit].
Proof.
  destruct (protect_raises_only_what_func_raised (Scenario.test_guard "x")
              Scenario.interrupted [] [] TestUsage.setUp Scenario.interrupt
              Scenario.after_raise) as (Hraise & Hclass).
  split.
  - apply (proj1 Hraise). reflexivity.
  - apply (proj1 Hclass). reflexivity.
Defined.

Lemma protect_result_tells_what_happened_witness :
  (exists v,
      f_call Usage.returns_error [] [] TestUsage.setUp
      = (Normal v, Scenario.after_raise)
      /\ AllowFailResult true (VExc (mk_exc 0 ValueError (Some "returned")))
         = AllowFailResult true v)
  \/ (exists e w1,
         f_call Usage.returns_error [] [] TestUsage.setUp = (Raised e, w1)
         /\ isinstance e Exception = true
         /\ AllowFailResult true
              (VExc (mk_exc 0 ValueError (Some "returned")))
            = AllowFailResult false (VExc e)).
Proof.
  apply (protect_result_tells_what_happened (Scenario.test_guard "x")
           Usage.returns_error [] [] TestUsage.setUp
           (AllowFailResult true
              (VExc (mk_exc 0 ValueError (Some "returned"))))
           Scenario.after_raise).
  reflexivity.
Defined.

Lemma broken_logger_is_isolated_by_decorator_only_witness :
  with_stmt
    (__init__ "test %s" [VStr "logger"]
       (mk_options None (Some (CustomLogger Usage.broken_warning))))
    Scenario.raise_ValueError TestUsage.setUp
  = (Raised (mk_exc 1 RuntimeError (Some "disk full")), mk_world [] [] 2)
  /\ f_call
       (__call__
          (__init__ "test %s" [VStr "logger"]
             (mk_options None (Some (CustomLogger Usage.broken_warning))))
          TestUsage.valueerror) [] [] TestUsage.setUp
     = (Normal (AllowFailResult false (VExc Scenario.test_error)),
        mk_world
          [mk_record "OnError" WARNING
             "On error handler: valueerror got an error: disk full"]
          [] 2).
Proof.
  split.
  - apply (proj1 (broken_logger_is_isolated_by_decorator_only
                    "test %s" [VStr "logger"] "test logger"
                    Usage.broken_warning TestUsage.valueerror [] []
                    Scenario.raise_ValueError TestUsage.setUp
                    (mk_exc 0 ValueError None) Scenario.after_raise
                    (mk_exc 1 RuntimeError (Some "disk full"))
                    (mk_world [] [] 2) eq_refl eq_refl)).
    reflexivity.
  - apply (proj2 (broken_logger_is_isolated_by_decorator_only
                    "test %s" [VStr "logger"] "test logger"
                    Usage.broken_warning TestUsage.valueerror [] []
                    Scenario.raise_ValueError TestUsage.setUp
                    Scenario.test_error Scenario.after_raise
                    (mk_exc 1 RuntimeError (Some "disk full"))
                    (mk_world [] [] 2) eq_refl eq_refl)); reflexivity.
Defined.

Lemma plain_label_reported_verbatim_witness :
  with_stmt Usage.plain_guard Scenario.raise_ValueError TestUsage.setUp
  = (Normal tt,
     mk_world []
       [([VStr "loading the configuration"; VExc (mk_exc 0 ValueError None)],
         [])] 1)
  /\ f_call (__call__ Usage.plain_guard TestUsage.valueerror) [] []
       TestUsage.setUp
     = (Normal (AllowFailResult false (VExc Scenario.test_error)),
        mk_world []
          [([VStr "loading the configuration"; VExc Scenario.test_error], [])]
          1).
Proof.
  split.
  - apply (proj1 (plain_label_reported_verbatim "loading the configuration"
                    (mk_options (Some TestUsage.log_handler) None)
                    TestUsage.valueerror [] [] Scenario.raise_ValueError
                    TestUsage.setUp (mk_exc 0 ValueError None)
                    Scenario.after_raise eq_refl)).
    reflexivity.
  - apply (proj1 (proj2 (plain_label_reported_verbatim
                           "loading the configuration"
                           (mk_options (Some TestUsage.log_handler) None)
                           TestUsage.valueerror [] []
                           Scenario.raise_ValueError
                           TestUsage.setUp Scenario.test_error
                           Scenario.after_raise eq_refl))); reflexivity.
Defined.

Lemma log_records_each_failure_once_witness :
  f_call (__call__ (Scenario.test_guard "valueerror") TestUsage.valueerror)
    [] [] TestUsage.setUp
  = (Normal (AllowFailResult false (VExc Scenario.test_error)),
     mk_world [] [([VStr "test valueerror"; VExc Scenario.test_error], [])] 1)
  /\ with_stmt (Scenario.test_guard "contextmanager")
       Scenario.raise_ValueError TestUsage.setUp
     = (Normal tt,
        mk_world []
          [([VStr "test contextmanager"; VExc (mk_exc 0 ValueError None)], [])]
          1).
Proof.
  split.
  - apply (proj1 (log_records_each_failure_once "test %s" [VStr "valueerror"]
                    None "test valueerror" TestUsage.valueerror [] []
                    Scenario.raise_ValueError TestUsage.setUp
                    Scenario.test_error Scenario.after_raise eq_refl));
      reflexivity.
  - apply (proj2 (log_records_each_failure_once "test %s"
                    [VStr "contextmanager"] None "test contextmanager"
                    TestUsage.valueerror [] [] Scenario.raise_ValueError
                    TestUsage.setUp (mk_exc 0 ValueError None)
                    Scenario.after_raise eq_refl)).
    reflexivity.
Defined.

Lemma default_block_raises_only_on_bad_label_witness :
  exists e w1 cls msg,
    Scenario.raise_ValueError TestUsage.setUp = (Raised e, w1)
    /\ interpolate "job %s of %s" [VInt 3] = FormatError cls msg
    /\ mk_exc 1 TypeError (Some "not enough arguments for format string")
       = mk_exc (next_id w1) cls (Some msg)
    /\ mk_world [] [] 2 = allocated w1.
Proof.
  apply (proj1 (default_block_raises_only_on_bad_label "job %s of %s"
                  [VInt 3] "app" Scenario.raise_ValueError TestUsage.setUp
                  (mk_exc 1 TypeError
                     (Some "not enough arguments for format string"))
                  (mk_world [] [] 2))).
  reflexivity.
Defined.
